(** * OllamaProvider: payload construction, error classification and
      response normalization of [aisuite/providers/ollama_provider.py].

    The Python module is embedded shallowly: Python objects are a small
    inductive type of values, dictionaries are finite maps with string
    keys, exceptions are values of an error monad, and the HTTP transport
    ([httpx.post]) is a function the provider is given. *)

From Stdlib Require Import ZArith String Ascii List SpecFloat.
From stdpp Require Import base option gmap strings list fin_maps pretty.

Set Warnings "-register-all".

Local Open Scope string_scope.
Local Open Scope Z_scope.

(** ** Python values *)

(** The objects that flow through the provider: the JSON-like values of
    the keyword arguments, of the request body and of the response body,
    and the byte strings a configuration may hold.  A float is its
    IEEE-754 datum; a byte string is the string of its bytes. *)
Inductive value : Type :=
  | VNone
  | VBool (b : bool)
  | VInt (z : Z)
  | VFloat (f : spec_float)
  | VStr (s : string)
  | VList (l : list value)
  | VDict (d : gmap string value)
  | VBytes (b : string)
  | VByteArray (b : string).

(** A Python [dict] with string keys. *)
Abbreviation dict := (gmap string value).

(** Truth value of an object, as [or] and [if] test it. *)
Definition py_truthy (v : value) : bool :=
  match v with
  | VNone => false
  | VBool b => b
  | VInt z => negb (z =? 0)
  | VFloat (S754_zero _) => false
  | VFloat _ => true
  | VStr EmptyString => false
  | VStr _ => true
  | VList [] => false
  | VList _ => true
  | VDict d => negb (Nat.eqb (size d) 0)
  | VBytes EmptyString | VByteArray EmptyString => false
  | VBytes _ | VByteArray _ => true
  end.

(** [a or b] *)
Definition py_or (a b : value) : value :=
  if py_truthy a then a else b.

(** [type(v).__name__] *)
Definition type_name (v : value) : string :=
  match v with
  | VNone => "NoneType"
  | VBool _ => "bool"
  | VInt _ => "int"
  | VFloat _ => "float"
  | VStr _ => "str"
  | VList _ => "list"
  | VDict _ => "dict"
  | VBytes _ => "bytes"
  | VByteArray _ => "bytearray"
  end.

(** ** Dictionary operations *)

(** [d.get(k)] *)
Definition dict_get (d : dict) (k : string) : value :=
  default VNone (d !! k).

(** [d.get(k, dflt)] *)
Definition dict_get_default (d : dict) (k : string) (dflt : value) : value :=
  default dflt (d !! k).

(** [k in d] *)
Definition dict_contains (d : dict) (k : string) : bool :=
  bool_decide (is_Some (d !! k)).

(** [d.pop(k)] on a key that is present: the value and the dictionary
    without the key.  The provider only pops after a membership test. *)
Definition dict_pop (d : dict) (k : string) : value * dict :=
  (dict_get d k, delete k d).

(** [d.update(other)]: every entry of [other] is written into [d]. *)
Definition dict_update (d other : dict) : dict := other ∪ d.

(** ** Payload construction (lines 35-56) *)

Definition option_keys : list string :=
  ["temperature"; "top_p"; "seed"; "stop"; "num_predict"; "top_k"].

(** One iteration of the loop of lines 48-50, on the pair
    [(options, kwargs)]. *)
Definition move_option (st : dict * dict) (key : string) : dict * dict :=
  let '(options, kwargs) := st in
  if dict_contains kwargs key then
    let '(v, kwargs') := dict_pop kwargs key in
    (<[key := v]> options, kwargs')
  else (options, kwargs).

(** The loop of lines 47-50: returns [(options, kwargs)] after it. *)
Definition collect_options (kwargs : dict) : dict * dict :=
  fold_left move_option option_keys (∅, kwargs).

(** Lines 42-43: returns [(payload, kwargs)]. *)
Definition move_tools (payload kwargs : dict) : dict * dict :=
  if dict_contains kwargs "tools" then
    let '(v, kwargs') := dict_pop kwargs "tools" in
    (<["tools" := v]> payload, kwargs')
  else (payload, kwargs).

(** Lines 35-56: the request body built from the call's arguments. *)
Definition build_payload (model messages : value) (kwargs : dict) : dict :=
  let payload : dict :=
    <["stream" := VBool false]>
      (<["messages" := messages]> (<["model" := model]> ∅)) in
  let '(payload, kwargs) := move_tools payload kwargs in
  let '(options, kwargs) := collect_options kwargs in
  let payload :=
    if py_truthy (VDict options) then <["options" := VDict options]> payload
    else payload in
  dict_update payload kwargs.

(** The keys lines 42-50 take out of [kwargs]. *)
Definition consumed_keys : list string := "tools" :: option_keys.

(** The [options] dictionary as lines 47-50 leave it. *)
Definition built_options (kwargs : dict) : dict :=
  (collect_options (move_tools ∅ kwargs).2).1.

(** The keyword arguments left for the final merge of line 56. *)
Definition remaining_kwargs (kwargs : dict) : dict :=
  (collect_options (move_tools ∅ kwargs).2).2.

(** The payload as line 53 leaves it, before the merge of line 56. *)
Definition staged_payload (model messages : value) (kwargs : dict) : dict :=
  let payload : dict :=
    <["stream" := VBool false]>
      (<["messages" := messages]> (<["model" := model]> ∅)) in
  let payload := (move_tools payload kwargs).1 in
  if py_truthy (VDict (built_options kwargs))
  then <["options" := VDict (built_options kwargs)]> payload
  else payload.


(** ** Exceptions and the error monad *)

(** The exception classes the provider meets.  [LLMError] is the
    provider's own error kind.  [OtherException] is any other class
    derived from [Exception]; [BaseExceptionOnly] is a class derived
    from [BaseException] and not from [Exception] ([KeyboardInterrupt],
    [SystemExit]), which [except Exception] does not catch. *)
Inductive exn_class : Type :=
  | LLMError
  | ConnectError
  | HTTPStatusError
  | JSONDecodeError
  | UnicodeDecodeError
  | RecursionError
  | AttributeError
  | TypeError
  | IndexError
  | OtherException (name : string)
  | BaseExceptionOnly (name : string).

(** [issubclass(cls, Exception)] *)
Definition is_Exception (cls : exn_class) : bool :=
  match cls with
  | BaseExceptionOnly _ => false
  | _ => true
  end.

(** An exception object: its class and [str(e)]. *)
Record exn : Type := Exn { exn_cls : exn_class; exn_msg : string }.

Inductive result (A : Type) : Type :=
  | Ok (a : A)
  | Raise (e : exn).
Arguments Ok {A} a.
Arguments Raise {A} e.

#[global] Instance result_ret : MRet result := fun A a => Ok a.
#[global] Instance result_bind : MBind result := fun A B f m =>
  match m with
  | Ok a => f a
  | Raise e => Raise e
  end.

(** [try: m  except Exception: dflt], for an [m] whose exceptions are
    [Exception]s, as decoding errors and attribute errors are. *)
Definition try_or {A : Type} (m : result A) (dflt : A) : A :=
  match m with
  | Ok a => a
  | Raise _ => dflt
  end.

(** [v.get(k, dflt)] on an arbitrary object: only a [dict] has [get]. *)
Definition value_get (v : value) (k : string) (dflt : value) : result value :=
  match v with
  | VDict d => Ok (dict_get_default d k dflt)
  | _ => Raise (Exn AttributeError
                  ("'" ++ type_name v ++ "' object has no attribute 'get'"))
  end.

(** [s.rstrip(chars)] on a string: trailing characters that occur in
    [chars] are dropped. *)
Definition char_in (c : ascii) (chars : string) : bool :=
  existsb (Ascii.eqb c) (list_ascii_of_string chars).

Fixpoint rstrip (chars s : string) : string :=
  match s with
  | EmptyString => EmptyString
  | String c rest =>
      match rstrip chars rest with
      | EmptyString => if char_in c chars then EmptyString
                       else String c EmptyString
      | rest' => String c rest'
      end
  end.

(** [v.rstrip(chars)] on an arbitrary object, [chars] being a [str]: a
    [str] is stripped; [bytes] and [bytearray] have an [rstrip] that
    refuses a [str] argument; the other objects have no [rstrip]. *)
Definition value_rstrip (v : value) (chars : string) : result string :=
  match v with
  | VStr s => Ok (rstrip chars s)
  | VBytes _ | VByteArray _ =>
      Raise (Exn TypeError "a bytes-like object is required, not 'str'")
  | _ => Raise (Exn AttributeError
                  ("'" ++ type_name v ++ "' object has no attribute 'rstrip'"))
  end.

(** ** The provider's collaborators *)

(** What [httpx.post] is called with. *)
Record Request : Type := mkRequest {
  req_target : string;
  req_json : dict;
  req_timeout : value
}.

(** How the decoding of a body fails: [response.json()] raises
    [JSONDecodeError] on a text that is not JSON, [UnicodeDecodeError]
    on bytes that are not a Unicode text, [RecursionError] on a text
    nested too deep; each with the message of the occasion. *)
Inductive decode_failure : Type :=
  | NotJSON (msg : string)
  | NotUnicode (msg : string)
  | TooDeep (msg : string).

Definition decode_exn (f : decode_failure) : exn :=
  match f with
  | NotJSON msg => Exn JSONDecodeError msg
  | NotUnicode msg => Exn UnicodeDecodeError msg
  | TooDeep msg => Exn RecursionError msg
  end.

(** An [httpx.Response], as far as the provider reads it: the status
    code, the body text, what [response.json()] gives ([None] when the
    body does not decode, in which case [json()] raises), and how the
    decoding fails when it does. *)
Record Response : Type := mkResponse {
  status_code : Z;
  text : string;
  json_body : option value;
  json_failure : decode_failure
}.

(** [response.json()] *)
Definition response_json (r : Response) : result value :=
  match json_body r with
  | Some v => Ok v
  | None => Raise (decode_exn (json_failure r))
  end.

(** [response.raise_for_status()]: httpx raises [HTTPStatusError] unless
    the status is a success code (2xx). *)
Definition raise_for_status (r : Response) : result unit :=
  if (200 <=? status_code r) && (status_code r <? 300) then Ok tt
  else Raise (Exn HTTPStatusError
                ("status " ++ pretty (status_code r))).

(** The transport: [httpx.post], which answers or raises. *)
Abbreviation transport := (Request -> result Response).

(** Modelled from the spec: [aisuite.framework.ChatCompletionResponse]
    is not part of the sources.  The spec describes it as a container
    with one fixed-index choice holding a message; the message has
    [content] and an optional [tool_calls], unset until assigned. *)
Record Message : Type := mkMessage {
  content : value;
  tool_calls : option value
}.

Record Choice : Type := mkChoice { message : Message }.

Record ChatCompletionResponse : Type := mkChatCompletionResponse {
  choices : list Choice
}.

Definition new_ChatCompletionResponse : ChatCompletionResponse :=
  mkChatCompletionResponse [mkChoice (mkMessage VNone None)].

(** [r.choices[0].message = f(r.choices[0].message)] *)
Definition update_first_message (f : Message -> Message)
    (r : ChatCompletionResponse) : result ChatCompletionResponse :=
  match choices r with
  | c :: rest => Ok (mkChatCompletionResponse (mkChoice (f (message c)) :: rest))
  | [] => Raise (Exn IndexError "list index out of range")
  end.

(** ** The provider *)

Definition _CHAT_COMPLETION_ENDPOINT : string := "/api/chat".

Definition _CONNECT_ERROR_MESSAGE : string :=
  "Ollama is likely not running. Start Ollama by running `ollama serve` on your host.".

Definition _DEFAULT_URL : string := "http://localhost:11434".

(** The instance attributes set by [__init__]. *)
Record OllamaProvider : Type := mkOllamaProvider {
  url : value;
  timeout : value
}.

(** [os.getenv(name, dflt)] on an environment. *)
Definition os_getenv (env : gmap string string) (name dflt : string) : value :=
  VStr (default dflt (env !! name)).

(** Lines 18-27. *)
Definition __init__ (config : dict) (env : gmap string string) : OllamaProvider :=
  {| url := py_or (dict_get config "api_url")
                  (os_getenv env "OLLAMA_API_URL" _DEFAULT_URL);
     timeout := dict_get_default config "timeout" (VInt 30) |}.

(** Lines 85-99. *)
Definition _normalize_response (response_data : value)
    : result ChatCompletionResponse :=
  let normalized_response := new_ChatCompletionResponse in
  message_data ← value_get response_data "message" (VDict ∅);
  c ← value_get message_data "content" (VStr "");
  normalized_response ←
    update_first_message (fun m => mkMessage c (tool_calls m))
      normalized_response;
  match message_data with
  | VDict d =>
      match d !! "tool_calls" with
      | Some tc =>
          update_first_message (fun m => mkMessage (content m) (Some tc))
            normalized_response
      | None => Ok normalized_response
      end
  | _ => Ok normalized_response
  end.

Section Provider.

(** Python's builtin [str], which formats the fields of an f-string. *)
Variable py_str : value -> string.

(** Lines 64-70, the status check on a response that arrived. *)
Definition error_detail (response : Response) : value :=
  try_or (j ← response_json response;
          value_get j "error" (VStr (text response)))
         (VStr (text response)).

Definition check_status (response : Response) : result unit :=
  if negb (status_code response =? 200) then
    Raise (Exn LLMError
             ("Ollama request failed with status "
              ++ pretty (status_code response) ++ ": "
              ++ py_str (error_detail response)))
  else Ok tt.

(** Lines 60-62, the arguments of [httpx.post]. *)
Definition request_of (self : OllamaProvider) (payload : dict) : result Request :=
  base ← value_rstrip (url self) "/";
  Ok (mkRequest (base ++ _CHAT_COMPLETION_ENDPOINT) payload (timeout self)).

(** Lines 59-72, the body of the [try]: the requests sent and the
    response or the exception it ends with. *)
Definition try_body (self : OllamaProvider) (payload : dict) (post : transport)
    : list Request * result Response :=
  match request_of self payload with
  | Raise e => ([], Raise e)
  | Ok request =>
      ([request],
       response ← post request;
       _ ← check_status response;
       _ ← raise_for_status response;
       Ok response)
  end.

(** Lines 73-80, the [except] clauses in their order: the exception
    that leaves the [try] statement.  An exception that is not an
    [Exception] matches no clause and leaves as it is. *)
Definition except_clauses (e : exn) : exn :=
  match exn_cls e with
  | ConnectError =>
      Exn LLMError ("Connection failed: " ++ _CONNECT_ERROR_MESSAGE)
  | HTTPStatusError =>
      Exn LLMError ("Ollama request failed: " ++ exn_msg e)
  | cls =>
      if is_Exception cls then
        match cls with
        | LLMError => e
        | _ => Exn LLMError ("An error occurred: " ++ exn_msg e)
        end
      else e
  end.

(** Lines 29-83: the requests sent, and the normalized response or the
    exception that reaches the caller. *)
Definition chat_completions_create (self : OllamaProvider)
    (model messages : value) (kwargs : dict) (post : transport)
    : list Request * result ChatCompletionResponse :=
  let payload := build_payload model messages kwargs in
  let '(sent, outcome) := try_body self payload post in
  (sent,
   match outcome with
   | Raise e => Raise (except_clauses e)
   | Ok response =>
       response_data ← response_json response;
       _normalize_response response_data
   end).

End Provider.

(** ** Statements of the specification *)

(** [needle in hay] on strings. *)
Fixpoint str_contains (needle hay : string) : bool :=
  String.prefix needle hay ||
  match hay with
  | EmptyString => false
  | String _ rest => str_contains needle rest
  end.

(** The double quote character, for JSON texts. *)
Definition dq : string := String "034"%char EmptyString.

(** Routing of the six option keys as the specification words it: every
    option key of [kwargs] is absent from the top level of the payload
    and sits with its value inside [payload["options"]]; without any
    option key there is no ["options"] entry. *)
Definition options_routed (payload kwargs : dict) : Prop :=
  (∀ k v, k ∈ option_keys → kwargs !! k = Some v →
     payload !! k = None
     ∧ ∃ o, payload !! "options" = Some (VDict o) ∧ o !! k = Some v)
  ∧ ((∀ k, k ∈ option_keys → kwargs !! k = None) →
     payload !! "options" = None).

(** Placement of the tools as the specification words it: the value of
    the ["tools"] keyword is the payload's top-level ["tools"] entry and
    there is no ["tools"] entry inside [payload["options"]]. *)
Definition tools_only_at_top_level (payload : dict) (tools : value) : Prop :=
  payload !! "tools" = Some tools
  ∧ ∀ o, payload !! "options" = Some (VDict o) → o !! "tools" = None.

(** Resolution of the base URL as the specification words it: the
    explicit config value if given, else the environment variable, else
    the literal default. *)
Definition spec_base_url (config : dict) (env : gmap string string) : value :=
  match config !! "api_url" with
  | Some v => v
  | None => VStr (default _DEFAULT_URL (env !! "OLLAMA_API_URL"))
  end.

(** A non-empty string. *)
Definition nonempty_str (v : value) : Prop :=
  ∃ s, v = VStr s ∧ s ≠ "".

(** A finite-precision [0.2], the usual [temperature]. *)
Definition temp02 : value := VFloat (S754_finite false 7205759403792794 (-55)).

(** The request target as the specification words it: the specified
    base URL without its trailing slashes, followed by the fixed path. *)
Definition request_target_spec (config : dict) (env : gmap string string)
    (sent : list Request) : Prop :=
  ∀ u, spec_base_url config env = VStr u →
       map req_target sent = [rstrip "/" u ++ "/api/chat"].

(** [n] slashes. *)
Fixpoint slashes (n : nat) : string :=
  match n with
  | O => EmptyString
  | S n => String "/" (slashes n)
  end.

(** The last character of a string, if any. *)
Fixpoint last_char (s : string) : option ascii :=
  match s with
  | EmptyString => None
  | String c EmptyString => Some c
  | String _ rest => last_char rest
  end.

(** ** Sample calls *)

(** [temperature=0.2, options={"num_ctx": 4096}] *)
Definition kwargs_temperature_and_options : dict :=
  <["temperature" := temp02]>
    (<["options" := VDict (<["num_ctx" := VInt 4096]> ∅)]> ∅).

(** [stream=True, temperature=0.2] *)
Definition kwargs_stream : dict :=
  <["stream" := VBool true]> (<["temperature" := temp02]> ∅).

(** [tools=[{"type": "function"}], temperature=0.2] *)
Definition sample_tools : value :=
  VList [VDict (<["type" := VStr "function"]> ∅)].

Definition kwargs_tools : dict :=
  <["tools" := sample_tools]> (<["temperature" := temp02]> ∅).

(** [tools=[{"type": "function"}], options={"tools": [{"type": "function"}]}] *)
Definition kwargs_tools_in_options : dict :=
  <["tools" := sample_tools]>
    (<["options" := VDict (<["tools" := sample_tools]> ∅)]> ∅).

(** A formatter for the sample calls: Python's [str] on [None],
    booleans, integers and strings; the sample calls format no other
    object. *)
Definition str_of_scalar (v : value) : string :=
  match v with
  | VNone => "None"
  | VBool true => "True"
  | VBool false => "False"
  | VInt z => pretty z
  | VStr s => s
  | _ => "<" ++ type_name v ++ ">"
  end.

(** The body [{"error": "boom"}] of a failed request. *)
Definition boom_body : string :=
  "{" ++ dq ++ "error" ++ dq ++ ": " ++ dq ++ "boom" ++ dq ++ "}".

Definition boom_response : Response :=
  mkResponse 500 boom_body (Some (VDict (<["error" := VStr "boom"]> ∅)))
    (NotJSON "").

(** A 200 answer whose body is not JSON. *)
Definition undecodable_response : Response :=
  mkResponse 200 "<html>Bad Gateway</html>" None
    (NotJSON "Expecting value: line 1 column 1 (char 0)").

(** [{"message": {"content": "hi", "tool_calls": [{"id": 1}]}}] *)
Definition hi_tool_calls : value := VList [VDict (<["id" := VInt 1]> ∅)].

Definition hi_response_data : value :=
  VDict (<["message" :=
            VDict (<["content" := VStr "hi"]>
                     (<["tool_calls" := hi_tool_calls]> ∅))]> ∅).

(** [{"message": {}}] *)
Definition empty_message_data : value :=
  VDict (<["message" := VDict ∅]> ∅).

(** * Properties *)

(** ** Dictionary helpers *)

Lemma dict_contains_true (d : dict) k :
  dict_contains d k = true ↔ is_Some (d !! k).
Proof. unfold dict_contains. apply bool_decide_eq_true. Qed.

Lemma dict_contains_false (d : dict) k :
  dict_contains d k = false ↔ d !! k = None.
Proof.
  unfold dict_contains. rewrite bool_decide_eq_false, eq_None_not_Some. done.
Qed.

Lemma dict_update_lookup (d other : dict) k :
  dict_update d other !! k
  = match other !! k with Some v => Some v | None => d !! k end.
Proof.
  unfold dict_update. destruct (other !! k) as [v|] eqn:E.
  - by apply lookup_union_Some_l.
  - by apply lookup_union_r.
Qed.

Lemma py_truthy_dict_false (o : dict) :
  py_truthy (VDict o) = false ↔ o = ∅.
Proof.
  simpl. rewrite negb_false_iff, Nat.eqb_eq. apply map_size_empty_iff.
Qed.

Lemma py_truthy_dict_true (o : dict) k v :
  o !! k = Some v → py_truthy (VDict o) = true.
Proof.
  intros Hk. destruct (py_truthy (VDict o)) eqn:E; [done|].
  apply py_truthy_dict_false in E. subst. by rewrite lookup_empty in Hk.
Qed.

(** ** The payload *)

Lemma move_option_fst (o kw : dict) key k :
  (move_option (o, kw) key).1 !! k
  = if decide (k = key)
    then match kw !! k with Some v => Some v | None => o !! k end
    else o !! k.
Proof.
  unfold move_option, dict_pop, dict_get.
  destruct (dict_contains kw key) eqn:E; simpl.
  - apply dict_contains_true in E as [v Hv].
    case_decide; subst.
    + rewrite lookup_insert_eq, Hv. done.
    + rewrite lookup_insert_ne by done. done.
  - apply dict_contains_false in E.
    case_decide; subst; [rewrite E|]; done.
Qed.

Lemma move_option_snd (o kw : dict) key k :
  (move_option (o, kw) key).2 !! k
  = if decide (k = key) then None else kw !! k.
Proof.
  unfold move_option, dict_pop.
  destruct (dict_contains kw key) eqn:E; simpl.
  - case_decide; subst.
    + apply lookup_delete_eq.
    + by apply lookup_delete_ne.
  - apply dict_contains_false in E.
    case_decide; subst; done.
Qed.

(** The loop over any list of keys moves exactly the entries of those
    keys. *)
Lemma fold_move_option (ks : list string) (o kw : dict) k :
  (fold_left move_option ks (o, kw)).1 !! k
    = (if decide (k ∈ ks)
       then match kw !! k with Some v => Some v | None => o !! k end
       else o !! k)
  ∧ (fold_left move_option ks (o, kw)).2 !! k
    = (if decide (k ∈ ks) then None else kw !! k).
Proof.
  revert o kw. induction ks as [|key ks IH]; intros o kw; cbn [fold_left].
  - split; (case_decide as Hin; [by apply elem_of_nil in Hin | done]).
  - destruct (move_option (o, kw) key) as [o' kw'] eqn:E.
    pose proof (move_option_fst o kw key k) as H1.
    pose proof (move_option_snd o kw key k) as H2.
    rewrite E in H1, H2. simpl in H1, H2.
    destruct (IH o' kw') as [I1 I2]. rewrite I1, I2, H1, H2.
    clear IH I1 I2 E.
    split; repeat case_decide; subst;
      repeat match goal with
      | H : _ ∉ _ :: _ |- _ => apply not_elem_of_cons in H as [? ?]
      | H : _ ∈ _ :: _ |- _ => apply elem_of_cons in H as [?|?]
      end; try done; try congruence.
    all: rewrite H1; by destruct (kw !! _).
Qed.

Lemma collect_options_fst (kw : dict) k :
  (collect_options kw).1 !! k
  = if decide (k ∈ option_keys) then kw !! k else None.
Proof.
  unfold collect_options.
  destruct (fold_move_option option_keys ∅ kw k) as [-> _].
  case_decide; [|done]. rewrite lookup_empty. by destruct (kw !! k).
Qed.

Lemma collect_options_snd (kw : dict) k :
  (collect_options kw).2 !! k
  = if decide (k ∈ option_keys) then None else kw !! k.
Proof.
  unfold collect_options.
  by destruct (fold_move_option option_keys ∅ kw k) as [_ ->].
Qed.

Lemma move_tools_fst (p kw : dict) k :
  (move_tools p kw).1 !! k
  = if decide (k = "tools")
    then match kw !! "tools" with Some v => Some v | None => p !! k end
    else p !! k.
Proof.
  unfold move_tools, dict_pop, dict_get.
  destruct (dict_contains kw "tools") eqn:E; simpl.
  - apply dict_contains_true in E as [v Hv].
    case_decide; subst.
    + rewrite lookup_insert_eq, Hv. done.
    + rewrite lookup_insert_ne by done. done.
  - apply dict_contains_false in E.
    case_decide; subst; [rewrite E|]; done.
Qed.

Lemma move_tools_snd (p kw : dict) : (move_tools p kw).2 = delete "tools" kw.
Proof.
  unfold move_tools, dict_pop.
  destruct (dict_contains kw "tools") eqn:E; simpl; [done|].
  apply dict_contains_false in E. by rewrite delete_id.
Qed.

Lemma not_option_key_tools : "tools" ∉ option_keys.
Proof.
  unfold option_keys. intros H.
  repeat (apply elem_of_cons in H as [?|H]; [discriminate|]).
  by apply elem_of_nil in H.
Qed.

Lemma built_options_lookup (kw : dict) k :
  built_options kw !! k = if decide (k ∈ option_keys) then kw !! k else None.
Proof.
  unfold built_options. rewrite collect_options_fst, move_tools_snd.
  case_decide as Hk; [|done].
  apply lookup_delete_ne. intros <-. by apply not_option_key_tools.
Qed.

Lemma remaining_kwargs_lookup (kw : dict) k :
  remaining_kwargs kw !! k
  = if decide (k ∈ consumed_keys) then None else kw !! k.
Proof.
  unfold remaining_kwargs, consumed_keys.
  rewrite collect_options_snd, move_tools_snd.
  destruct (decide (k ∈ option_keys)) as [Hk|Hk].
  - rewrite decide_True; [done|]. by apply elem_of_cons; right.
  - destruct (decide (k = "tools")) as [->|Hne].
    + rewrite decide_True; [apply lookup_delete_eq|]. by apply elem_of_cons; left.
    + rewrite decide_False.
      * by apply lookup_delete_ne.
      * intros [?|?]%elem_of_cons; done.
Qed.

(** The payload is the staged payload with the remaining keyword
    arguments written over it. *)
Lemma build_payload_merge model messages kw :
  build_payload model messages kw
  = dict_update (staged_payload model messages kw) (remaining_kwargs kw).
Proof.
  unfold build_payload, staged_payload, remaining_kwargs, built_options.
  rewrite (move_tools_snd ∅ kw).
  match goal with
  | |- context [move_tools ?b kw] =>
      pose proof (move_tools_snd b kw) as Hkw;
      destruct (move_tools b kw) as [p kw1]
  end.
  simpl in Hkw. subst kw1.
  destruct (collect_options (delete "tools" kw)) as [o kw2]. done.
Qed.

Lemma staged_payload_lookup model messages kw k :
  staged_payload model messages kw !! k
  = if decide (k = "options")
    then (if py_truthy (VDict (built_options kw))
          then Some (VDict (built_options kw)) else None)
    else if decide (k = "tools")
    then kw !! "tools"
    else (<["stream" := VBool false]>
           (<["messages" := messages]> (<["model" := model]> (∅ : dict)))) !! k.
Proof.
  unfold staged_payload.
  destruct (decide (k = "options")) as [->|Hno].
  - destruct (py_truthy _).
    + apply lookup_insert_eq.
    + rewrite move_tools_fst. rewrite decide_False by done. done.
  - assert ((move_tools (<["stream" := VBool false]>
               (<["messages" := messages]> (<["model" := model]> ∅))) kw).1 !! k
            = if decide (k = "tools") then kw !! "tools"
              else (<["stream" := VBool false]>
                (<["messages" := messages]> (<["model" := model]> (∅ : dict)))) !! k)
      as Hmt.
    { rewrite move_tools_fst. case_decide; [|done]. subst.
      by destruct (kw !! "tools"). }
    destruct (py_truthy _); [rewrite lookup_insert_ne by done|]; exact Hmt.
Qed.

Lemma base_payload_option_key model messages k :
  k ∈ option_keys →
  (<["stream" := VBool false]>
     (<["messages" := messages]> (<["model" := model]> (∅ : dict)))) !! k = None.
Proof.
  unfold option_keys. intros H.
  repeat (apply elem_of_cons in H as [->|H];
          [by rewrite !lookup_insert_ne by done|]).
  by apply elem_of_nil in H.
Qed.

Lemma option_key_consumed k : k ∈ option_keys → k ∈ consumed_keys.
Proof. intros H. unfold consumed_keys. apply elem_of_cons. by right. Qed.

Lemma options_not_consumed : "options" ∉ consumed_keys.
Proof.
  unfold consumed_keys, option_keys. intros H.
  repeat (apply elem_of_cons in H as [?|H]; [discriminate|]).
  by apply elem_of_nil in H.
Qed.

Lemma option_key_not_reserved k :
  k ∈ option_keys → k ≠ "options" ∧ k ≠ "tools".
Proof.
  intros H. split; intros ->.
  - by apply options_not_consumed, option_key_consumed.
  - by apply not_option_key_tools.
Qed.

(** An option key never shows at the top level of the payload. *)
Lemma build_payload_option_key model messages kw k :
  k ∈ option_keys → build_payload model messages kw !! k = None.
Proof.
  intros Hk. destruct (option_key_not_reserved k Hk) as [Ho Ht].
  rewrite build_payload_merge, dict_update_lookup, remaining_kwargs_lookup.
  rewrite decide_True by by apply option_key_consumed.
  rewrite staged_payload_lookup, !decide_False by done.
  by apply base_payload_option_key.
Qed.

(** The ["options"] entry of the payload: the caller's own ["options"]
    keyword if there is one, else the collected options if any. *)
Lemma build_payload_options model messages kw :
  build_payload model messages kw !! "options"
  = match kw !! "options" with
    | Some v => Some v
    | None => if py_truthy (VDict (built_options kw))
              then Some (VDict (built_options kw)) else None
    end.
Proof.
  rewrite build_payload_merge, dict_update_lookup, remaining_kwargs_lookup.
  rewrite decide_False by apply options_not_consumed.
  destruct (kw !! "options"); [done|].
  rewrite staged_payload_lookup. by rewrite decide_True.
Qed.

Lemma build_payload_tools model messages kw :
  build_payload model messages kw !! "tools" = kw !! "tools".
Proof.
  rewrite build_payload_merge, dict_update_lookup, remaining_kwargs_lookup.
  rewrite decide_True by (unfold consumed_keys; apply list_elem_of_here).
  rewrite staged_payload_lookup. rewrite decide_False by done.
  by rewrite decide_True.
Qed.

Lemma built_options_delete_tools kw :
  built_options (delete "tools" kw) = built_options kw.
Proof.
  apply map_eq. intros k. rewrite !built_options_lookup.
  case_decide as Hk; [|done].
  apply lookup_delete_ne. intros <-. by apply not_option_key_tools.
Qed.

(** C1, as amended. For every call: none of the six option keys is an
    entry of the payload's top level; and when the keyword arguments
    carry no ["options"] entry of their own, every option key of
    [kwargs] sits with its value inside [payload["options"]], and there
    is no ["options"] entry when no option key was passed. *)
Theorem option_keys_routed model messages (kwargs : dict) :
  (∀ k, k ∈ option_keys → build_payload model messages kwargs !! k = None)
  ∧ (kwargs !! "options" = None →
     options_routed (build_payload model messages kwargs) kwargs).
Proof.
  split; [intros k; apply build_payload_option_key|].
  intros Hown. split.
  - intros k v Hk Hv. split; [by apply build_payload_option_key|].
    exists (built_options kwargs).
    assert (built_options kwargs !! k = Some v) as Hb.
    { rewrite built_options_lookup. by rewrite decide_True. }
    split; [|done].
    rewrite build_payload_options, Hown.
    by rewrite (py_truthy_dict_true _ k v Hb).
  - intros Hnone. rewrite build_payload_options, Hown.
    assert (built_options kwargs = ∅) as ->.
    { apply map_eq. intros k. rewrite built_options_lookup, lookup_empty.
      case_decide; [by apply Hnone|done]. }
    done.
Qed.

Lemma option_keys_routed_witness :
  options_routed (build_payload (VStr "llama3") (VList []) kwargs_tools)
    kwargs_tools.
Proof.
  apply (option_keys_routed (VStr "llama3") (VList []) kwargs_tools).
  reflexivity.
Defined.

(** C1, as stated, fails: with [temperature=0.2] and the caller's own
    [options={"num_ctx": 4096}], the merge of line 56 writes the caller's
    [options] over the collected one and the temperature is lost. *)
Lemma options_routed_counterexample :
  ¬ options_routed
      (build_payload (VStr "llama3") (VList []) kwargs_temperature_and_options)
      kwargs_temperature_and_options.
Proof.
  intros [H _].
  destruct (H "temperature" temp02) as (_ & o & Ho & Hk).
  - unfold option_keys. apply list_elem_of_here.
  - reflexivity.
  - rewrite build_payload_options in Ho.
    assert (kwargs_temperature_and_options !! "options"
            = Some (VDict (<["num_ctx" := VInt 4096]> ∅))) as E by reflexivity.
    rewrite E in Ho. injection Ho as <-.
    vm_compute in Hk. discriminate.
Qed.

(** C6. The keyword arguments left after ["tools"] and the six option
    keys are taken out are merged into the payload as the last step, and
    the merge wins: every remaining entry, whatever its key (["model"],
    ["messages"], ["stream"], ["tools"], ["options"] included), is the
    payload's entry for that key; the other keys keep what was staged. *)
Theorem remaining_kwargs_merged_last model messages (kwargs : dict) :
  build_payload model messages kwargs
    = dict_update (staged_payload model messages kwargs)
                  (remaining_kwargs kwargs)
  ∧ (∀ k, remaining_kwargs kwargs !! k
          = if decide (k ∈ consumed_keys) then None else kwargs !! k)
  ∧ (∀ k v, remaining_kwargs kwargs !! k = Some v →
       build_payload model messages kwargs !! k = Some v)
  ∧ (∀ k, remaining_kwargs kwargs !! k = None →
       build_payload model messages kwargs !! k
       = staged_payload model messages kwargs !! k).
Proof.
  split; [apply build_payload_merge|].
  split; [apply remaining_kwargs_lookup|].
  split.
  - intros k v Hk. by rewrite build_payload_merge, dict_update_lookup, Hk.
  - intros k Hk. by rewrite build_payload_merge, dict_update_lookup, Hk.
Qed.

Lemma remaining_kwargs_merged_last_witness :
  remaining_kwargs kwargs_stream !! "stream" = Some (VBool true)
  ∧ staged_payload (VStr "llama3") (VList []) kwargs_stream !! "stream"
    = Some (VBool false)
  ∧ build_payload (VStr "llama3") (VList []) kwargs_stream !! "stream"
    = Some (VBool true).
Proof.
  split; [reflexivity|]. split; [reflexivity|].
  apply (remaining_kwargs_merged_last (VStr "llama3") (VList []) kwargs_stream).
  reflexivity.
Defined.

(** C7, as amended. When [kwargs] has a ["tools"] entry, its value is
    the payload's top-level ["tools"] entry; the collected options have
    no ["tools"] key, so an ["options"] entry of the payload holds one
    only if it is the caller's own ["options"] keyword, and never when
    the caller passes no ["options"] keyword; ["tools"] is not among the
    keyword arguments merged at the end; and no other entry of the
    payload depends on the ["tools"] keyword. *)
Theorem tools_at_top_level model messages (kwargs : dict) tools :
  kwargs !! "tools" = Some tools →
  build_payload model messages kwargs !! "tools" = Some tools
  ∧ built_options kwargs !! "tools" = None
  ∧ (∀ o, build_payload model messages kwargs !! "options" = Some (VDict o) →
       o !! "tools" = None ∨ kwargs !! "options" = Some (VDict o))
  ∧ (kwargs !! "options" = None →
     tools_only_at_top_level (build_payload model messages kwargs) tools)
  ∧ remaining_kwargs kwargs !! "tools" = None
  ∧ (∀ k, k ≠ "tools" →
       build_payload model messages kwargs !! k
       = build_payload model messages (delete "tools" kwargs) !! k).
Proof.
  intros Ht.
  assert (built_options kwargs !! "tools" = None) as Hb.
  { rewrite built_options_lookup.
    by rewrite decide_False by apply not_option_key_tools. }
  assert (∀ o, build_payload model messages kwargs !! "options"
               = Some (VDict o) →
               o !! "tools" = None ∨ kwargs !! "options" = Some (VDict o))
    as Hopt.
  { intros o. rewrite build_payload_options.
    destruct (kwargs !! "options") as [v|]; [intros [= ->]; by right|].
    destruct (py_truthy _); [|done]. intros [= <-]. by left. }
  split; [by rewrite build_payload_tools|].
  split; [done|].
  split; [done|].
  split.
  { intros Hown. split; [by rewrite build_payload_tools|].
    intros o Ho. destruct (Hopt o Ho) as [?|Hc]; [done|congruence]. }
  split.
  { rewrite remaining_kwargs_lookup.
    by rewrite decide_True by (unfold consumed_keys; apply list_elem_of_here). }
  intros k Hk.
  rewrite !build_payload_merge, !dict_update_lookup, !remaining_kwargs_lookup.
  rewrite !staged_payload_lookup, built_options_delete_tools.
  rewrite (lookup_delete_ne kwargs "tools" k) by done.
  destruct (decide (k = "tools")); done.
Qed.

(** C7, as stated, fails: with [tools=T] and the caller's own
    [options={"tools": T}], the merge of line 56 makes the caller's
    mapping the payload's ["options"], and it holds the tools. *)
Lemma tools_in_options_counterexample :
  ¬ tools_only_at_top_level
      (build_payload (VStr "llama3") (VList []) kwargs_tools_in_options)
      sample_tools.
Proof.
  intros [_ H].
  specialize (H (<["tools" := sample_tools]> ∅)).
  rewrite lookup_insert_eq in H.
  assert (Some sample_tools = None) as Habs; [|discriminate].
  apply H. rewrite build_payload_options. reflexivity.
Qed.

Lemma tools_at_top_level_witness :
  build_payload (VStr "llama3") (VList []) kwargs_tools !! "tools"
    = Some sample_tools
  ∧ build_payload (VStr "llama3") (VList []) kwargs_tools !! "options"
    = Some (VDict (<["temperature" := temp02]> ∅)).
Proof.
  split.
  - refine (proj1 (tools_at_top_level (VStr "llama3") (VList [])
                     kwargs_tools sample_tools _)).
    reflexivity.
  - vm_compute. reflexivity.
Defined.

(** The payload of
    [chat_completions_create("llama3", [], temperature=0.2, tools=[...])]. *)
Example scenario_payload :
  build_payload (VStr "llama3") (VList []) kwargs_tools
  = <["options" := VDict (<["temperature" := temp02]> ∅)]>
     (<["tools" := sample_tools]>
       (<["stream" := VBool false]>
         (<["messages" := VList []]> (<["model" := VStr "llama3"]> ∅)))).
Proof. vm_compute. reflexivity. Qed.

(** A caller's [stream=True] replaces the staged [False]. *)
Example stream_overwritten :
  build_payload (VStr "llama3") (VList []) kwargs_stream !! "stream"
  = Some (VBool true).
Proof. reflexivity. Qed.

(** A caller's own [options] replaces the collected options. *)
Example options_overwritten :
  build_payload (VStr "llama3") (VList []) kwargs_temperature_and_options
  = <["options" := VDict (<["num_ctx" := VInt 4096]> ∅)]>
      (<["stream" := VBool false]>
        (<["messages" := VList []]> (<["model" := VStr "llama3"]> ∅))).
Proof. vm_compute. reflexivity. Qed.

(** ** The base URL *)

Lemma init_url_truthy (config : dict) env v :
  config !! "api_url" = Some v → py_truthy v = true →
  url (__init__ config env) = v.
Proof.
  intros Hv Ht. simpl. unfold py_or, dict_get. rewrite Hv. simpl.
  by rewrite Ht.
Qed.

Lemma init_url_falsy (config : dict) env :
  py_truthy (dict_get config "api_url") = false →
  url (__init__ config env) = VStr (default _DEFAULT_URL (env !! "OLLAMA_API_URL")).
Proof. intros Hf. simpl. unfold py_or. by rewrite Hf. Qed.

Lemma dict_get_delete (config : dict) k : dict_get (delete k config) k = VNone.
Proof. unfold dict_get. by rewrite lookup_delete_eq. Qed.

(** [rstrip "/"] takes a run of slashes off the end and leaves a string
    that does not end with a slash. *)
Lemma rstrip_slash_spec (s : string) :
  (∃ n, s = rstrip "/" s ++ slashes n)
  ∧ last_char (rstrip "/" s) ≠ Some "/"%char.
Proof.
  induction s as [|c rest [[n IHn] IHl]]; [split; [by exists O|done]|].
  cbn [rstrip]. destruct (rstrip "/" rest) as [|a r] eqn:E.
  - unfold char_in. cbn [list_ascii_of_string existsb].
    rewrite orb_false_r. destruct (Ascii.eqb_spec c "/") as [->|Hc].
    + split; [|done]. exists (S n). clear E. subst rest. reflexivity.
    + split; [|simpl; congruence]. exists n. clear E. subst rest. reflexivity.
  - split; [|exact IHl]. exists n. clear E. subst rest. reflexivity.
Qed.

Example rstrip_one_slash : rstrip "/" "http://host:1234/" = "http://host:1234".
Proof. reflexivity. Qed.

Example rstrip_all_slashes : rstrip "/" "http://host:1234///" = "http://host:1234".
Proof. reflexivity. Qed.

Example rstrip_no_slash : rstrip "/" "http://host:1234" = "http://host:1234".
Proof. reflexivity. Qed.

(** ** The request and its outcome *)

Section ProviderFacts.

Variable py_str : value → string.

Lemma request_of_str self payload u :
  url self = VStr u →
  request_of self payload
  = Ok (mkRequest (rstrip "/" u ++ "/api/chat") payload (timeout self)).
Proof. intros Hu. unfold request_of. by rewrite Hu. Qed.

(** With a request at hand, exactly that request is sent, and the call
    ends according to what the transport answers. *)
Lemma chat_completions_create_sent self model messages kwargs post request :
  request_of self (build_payload model messages kwargs) = Ok request →
  chat_completions_create py_str self model messages kwargs post
  = ([request],
     match post request with
     | Raise e => Raise (except_clauses e)
     | Ok response =>
         if negb (status_code response =? 200) then
           Raise (Exn LLMError
                    ("Ollama request failed with status "
                     ++ pretty (status_code response) ++ ": "
                     ++ py_str (error_detail response)))
         else response_data ← response_json response;
              _normalize_response response_data
     end).
Proof.
  intros Hreq. unfold chat_completions_create, try_body. rewrite Hreq.
  f_equal. destruct (post request) as [response|e]; [|done].
  cbn. unfold check_status.
  destruct (status_code response =? 200) eqn:E; cbn; [|done].
  apply Z.eqb_eq in E. unfold raise_for_status. rewrite E. done.
Qed.

(** An [Exception] leaves the [try] statement as an [LLMError]; any
    other exception leaves it as it is. *)
Lemma except_clauses_LLMError e :
  is_Exception (exn_cls e) = true → exn_cls (except_clauses e) = LLMError.
Proof. destruct e as [[] msg]; done. Qed.

Lemma except_clauses_not_Exception e :
  is_Exception (exn_cls e) = false → except_clauses e = e.
Proof. destruct e as [[] msg]; done. Qed.

(** An [Exception] raised inside the [try] statement, by the evaluation
    of the target, by the transport or by the status check, reaches the
    caller as an [LLMError]. *)
Lemma try_failure_is_LLMError self model messages kwargs post e :
  (try_body py_str self (build_payload model messages kwargs) post).2 = Raise e →
  is_Exception (exn_cls e) = true →
  ∃ e', (chat_completions_create py_str self model messages kwargs post).2
        = Raise e'
        ∧ exn_cls e' = LLMError.
Proof.
  intros He Hexn. exists (except_clauses e).
  split; [|by apply except_clauses_LLMError].
  unfold chat_completions_create.
  destruct (try_body _ _ _ _) as [sent outcome]. simpl in *. by subst.
Qed.

(** C3. A response with a status other than 200 makes the call raise
    [LLMError] with the message
    "Ollama request failed with status {status}: {error_detail}", where
    the detail is the formatted ["error"] field of the decoded body, or
    the raw text when the body does not decode, is not a mapping, or has
    no ["error"] field.  A 500 answer with body [{"error": "boom"}] gives
    a message that contains "status 500" and "boom". *)
Theorem non_200_raises self model messages kwargs post request response :
  (∀ s, py_str (VStr s) = s) →
  request_of self (build_payload model messages kwargs) = Ok request →
  post request = Ok response →
  status_code response ≠ 200 →
  ∃ detail,
    (chat_completions_create py_str self model messages kwargs post).2
    = Raise (Exn LLMError
               ("Ollama request failed with status "
                ++ pretty (status_code response) ++ ": " ++ detail))
    ∧ (∀ d e, json_body response = Some (VDict d) → d !! "error" = Some e →
         detail = py_str e)
    ∧ (json_body response = None → detail = text response)
    ∧ (∀ d, json_body response = Some (VDict d) → d !! "error" = None →
         detail = text response)
    ∧ (∀ j, json_body response = Some j → (∀ d, j ≠ VDict d) →
         detail = text response)
    ∧ (status_code response = 500 →
       json_body response = Some (VDict (<["error" := VStr "boom"]> ∅)) →
       detail = "boom"
       ∧ str_contains "status 500"
           ("Ollama request failed with status "
            ++ pretty (status_code response) ++ ": " ++ detail) = true
       ∧ str_contains "boom"
           ("Ollama request failed with status "
            ++ pretty (status_code response) ++ ": " ++ detail) = true).
Proof.
  intros Hstr Hreq Hpost Hstatus.
  exists (py_str (error_detail response)).
  rewrite (chat_completions_create_sent _ _ _ _ _ _ Hreq), Hpost. cbn [snd].
  apply Z.eqb_neq in Hstatus. rewrite Hstatus. cbn [negb].
  split; [done|].
  unfold error_detail, response_json.
  split; [|split; [|split; [|split]]].
  - intros d e -> He. cbn. unfold dict_get_default. by rewrite He.
  - intros ->. cbn. apply Hstr.
  - intros d -> He. cbn. unfold dict_get_default. rewrite He. apply Hstr.
  - intros j -> Hj. destruct j as [| | | | | |d| |]; cbn; try apply Hstr.
    by destruct (Hj d).
  - intros H500 Hjson. rewrite H500, Hjson. cbn.
    unfold dict_get_default. rewrite lookup_insert_eq. cbn. rewrite Hstr.
    split; [done|]. split; vm_compute; reflexivity.
Qed.

(** C4. When the transport raises a connect error, the call raises
    [LLMError] with exactly the "Connection failed: ..." message. *)
Theorem connect_error_message self model messages kwargs post request e :
  request_of self (build_payload model messages kwargs) = Ok request →
  post request = Raise e →
  exn_cls e = ConnectError →
  (chat_completions_create py_str self model messages kwargs post).2
  = Raise (Exn LLMError
      "Connection failed: Ollama is likely not running. Start Ollama by running `ollama serve` on your host.")
  ∧ str_contains "Connection failed"
      "Connection failed: Ollama is likely not running. Start Ollama by running `ollama serve` on your host."
    = true.
Proof.
  intros Hreq Hpost Hcls.
  rewrite (chat_completions_create_sent _ _ _ _ _ _ Hreq), Hpost. cbn [snd].
  unfold except_clauses. rewrite Hcls. split; reflexivity.
Qed.

End ProviderFacts.

Lemma non_200_raises_witness :
  (chat_completions_create str_of_scalar (__init__ ∅ ∅)
     (VStr "llama3") (VList []) ∅ (λ _, Ok boom_response)).2
  = Raise (Exn LLMError "Ollama request failed with status 500: boom").
Proof.
  edestruct (non_200_raises str_of_scalar (__init__ ∅ ∅)
               (VStr "llama3") (VList []) ∅ (λ _, Ok boom_response))
    as (detail & Hout & _ & _ & _ & _ & H500).
  - reflexivity.
  - reflexivity.
  - reflexivity.
  - simpl. discriminate.
  - destruct (H500 eq_refl eq_refl) as (Hd & _). rewrite Hd in Hout.
    exact Hout.
Defined.

Lemma connect_error_message_witness :
  (chat_completions_create str_of_scalar (__init__ ∅ ∅)
     (VStr "llama3") (VList [])  ∅
     (λ _, Raise (Exn ConnectError "[Errno 111] Connection refused"))).2
  = Raise (Exn LLMError
      "Connection failed: Ollama is likely not running. Start Ollama by running `ollama serve` on your host.").
Proof.
  eapply (connect_error_message str_of_scalar (__init__ ∅ ∅)
            (VStr "llama3") (VList []) ∅); reflexivity.
Defined.

(** C2 fails on the code: the decoding and the normalization of line 83
    stand after the [try] statement, so what they raise reaches the
    caller as it is.  A 200 answer whose body is not JSON makes the call
    raise [JSONDecodeError], not [LLMError]. *)
Theorem undecodable_200_escapes (py_str : value → string) :
  chat_completions_create py_str (__init__ ∅ ∅)
    (VStr "llama3") (VList []) ∅ (λ _, Ok undecodable_response)
  = ([mkRequest "http://localhost:11434/api/chat"
        (build_payload (VStr "llama3") (VList []) ∅) (VInt 30)],
     Raise (Exn JSONDecodeError "Expecting value: line 1 column 1 (char 0)")).
Proof. reflexivity. Qed.

(** The same holds for a decoded body that is not a mapping with a
    mapping under ["message"]: [{"message": null}] raises
    [AttributeError]. *)
Lemma null_message_escapes (py_str : value → string) :
  (chat_completions_create py_str (__init__ ∅ ∅)
     (VStr "llama3") (VList []) ∅
     (λ _, Ok (mkResponse 200 "{}" (Some (VDict (<["message" := VNone]> ∅)))
                 (NotJSON "")))).2
  = Raise (Exn AttributeError "'NoneType' object has no attribute 'get'").
Proof. reflexivity. Qed.

(** ** Normalization *)

Lemma normalize_response_message (d md : dict) :
  d !! "message" = Some (VDict md) →
  _normalize_response (VDict d)
  = Ok (mkChatCompletionResponse
          [mkChoice (mkMessage (dict_get_default md "content" (VStr ""))
                               (md !! "tool_calls"))]).
Proof.
  intros Hm. unfold _normalize_response. cbn.
  replace (dict_get_default d "message" (VDict ∅)) with (VDict md)
    by (unfold dict_get_default; by rewrite Hm).
  cbn. by destruct (md !! "tool_calls").
Qed.

Lemma normalize_response_no_message (d : dict) :
  d !! "message" = None →
  _normalize_response (VDict d)
  = Ok (mkChatCompletionResponse [mkChoice (mkMessage (VStr "") None)]).
Proof.
  intros Hm. unfold _normalize_response. cbn.
  replace (dict_get_default d "message" (VDict ∅)) with (VDict ∅)
    by (unfold dict_get_default; by rewrite Hm).
  cbn. unfold dict_get_default. by rewrite !lookup_empty.
Qed.

(** C5. [{"message": {"content": "hi", "tool_calls": [{"id": 1}]}}]
    normalizes to a first choice whose message has content ["hi"] and
    tool calls [[{"id": 1}]]; [{"message": {}}], and any input whose
    message has neither field, normalizes to content [""] with
    [tool_calls] left unset. *)
Theorem normalize_response_fields :
  _normalize_response hi_response_data
    = Ok (mkChatCompletionResponse
            [mkChoice (mkMessage (VStr "hi") (Some hi_tool_calls))])
  ∧ _normalize_response empty_message_data
    = Ok (mkChatCompletionResponse [mkChoice (mkMessage (VStr "") None)])
  ∧ (∀ d md : dict,
       d !! "message" = Some (VDict md) →
       md !! "content" = None → md !! "tool_calls" = None →
       _normalize_response (VDict d)
       = Ok (mkChatCompletionResponse [mkChoice (mkMessage (VStr "") None)]))
  ∧ (∀ d : dict,
       d !! "message" = None →
       _normalize_response (VDict d)
       = Ok (mkChatCompletionResponse [mkChoice (mkMessage (VStr "") None)])).
Proof.
  split; [reflexivity|]. split; [reflexivity|]. split.
  - intros d md Hm Hc Ht. rewrite (normalize_response_message d md Hm).
    unfold dict_get_default. by rewrite Hc, Ht.
  - apply normalize_response_no_message.
Qed.

Lemma normalize_response_fields_witness :
  ∃ r m, _normalize_response (VDict (<["message" := VDict ∅]> ∅)) = Ok r
         ∧ choices r !! 0%nat = Some (mkChoice m)
         ∧ content m = VStr "" ∧ tool_calls m = None.
Proof.
  eexists _, _. split.
  - apply (proj1 (proj2 (proj2 normalize_response_fields))
             (<["message" := VDict ∅]> ∅) ∅); reflexivity.
  - split; [reflexivity|]. split; reflexivity.
Defined.

(** ** The base URL and the request target *)

(** C8, as amended. The base URL is the config's [api_url] when that is
    given with a truthy value, else the [OLLAMA_API_URL] environment
    variable when set, else ["http://localhost:11434"]; whenever it is a
    string, the one request of a call goes to that string without its
    trailing slashes followed by ["/api/chat"]; with
    [api_url="http://host:1234/"] the target is
    ["http://host:1234/api/chat"]. *)
Theorem request_target (py_str : value → string) (config : dict)
    (env : gmap string string) model messages kwargs post :
  let self := __init__ config env in
  let sent :=
    (chat_completions_create py_str self model messages kwargs post).1 in
  (∀ v, config !! "api_url" = Some v → py_truthy v = true → url self = v)
  ∧ (py_truthy (dict_get config "api_url") = false →
     ∀ e, env !! "OLLAMA_API_URL" = Some e → url self = VStr e)
  ∧ (py_truthy (dict_get config "api_url") = false →
     env !! "OLLAMA_API_URL" = None → url self = VStr "http://localhost:11434")
  ∧ (∀ u, url self = VStr u →
       sent = [mkRequest (rstrip "/" u ++ "/api/chat")
                 (build_payload model messages kwargs) (timeout self)]
       ∧ (∃ n, u = rstrip "/" u ++ slashes n)
       ∧ last_char (rstrip "/" u) ≠ Some "/"%char)
  ∧ (config !! "api_url" = Some (VStr "http://host:1234/") →
     map req_target sent = ["http://host:1234/api/chat"]).
Proof.
  intros self sent.
  assert (∀ u, url self = VStr u →
            sent = [mkRequest (rstrip "/" u ++ "/api/chat")
                      (build_payload model messages kwargs) (timeout self)])
    as Hsent.
  { intros u Hu. unfold sent.
    by rewrite (chat_completions_create_sent py_str self model messages kwargs
                  post _ (request_of_str self _ u Hu)). }
  split; [intros v Hv Ht; by apply init_url_truthy|].
  split; [intros Hf e He; unfold self; by rewrite init_url_falsy, He|].
  split; [intros Hf He; unfold self; by rewrite init_url_falsy, He|].
  split.
  - intros u Hu. split; [by apply Hsent|]. apply rstrip_slash_spec.
  - intros Hc. rewrite (Hsent "http://host:1234/"); [reflexivity|].
    by apply init_url_truthy.
Qed.

Lemma request_target_witness :
  map req_target
    (chat_completions_create str_of_scalar
       (__init__ (<["api_url" := VStr "http://host:1234/"]> ∅) ∅)
       (VStr "llama3") (VList []) ∅ (λ _, Ok boom_response)).1
  = ["http://host:1234/api/chat"].
Proof.
  apply (request_target str_of_scalar
           (<["api_url" := VStr "http://host:1234/"]> ∅) ∅
           (VStr "llama3") (VList []) ∅ (λ _, Ok boom_response)).
  reflexivity.
Defined.

(** C8, as stated, fails: an [api_url] given as the empty string is not
    the base URL; the request goes to the default host, not to
    ["/api/chat"]. *)
Lemma request_target_counterexample :
  ¬ request_target_spec (<["api_url" := VStr ""]> ∅) ∅
      (chat_completions_create str_of_scalar
         (__init__ (<["api_url" := VStr ""]> ∅) ∅)
         (VStr "llama3") (VList []) ∅ (λ _, Ok boom_response)).1.
Proof.
  intros H. specialize (H "" eq_refl). vm_compute in H. discriminate.
Qed.

(** C9, as amended. The base URL is a non-empty string when the config's
    [api_url] is a non-empty string, and when the config's [api_url] is
    absent or falsy and [OLLAMA_API_URL] is unset or set to a non-empty
    string. *)
Theorem resolved_url_nonempty (config : dict) (env : gmap string string) :
  (∃ s, config !! "api_url" = Some (VStr s) ∧ s ≠ "")
  ∨ (py_truthy (dict_get config "api_url") = false
     ∧ env !! "OLLAMA_API_URL" ≠ Some "") →
  nonempty_str (url (__init__ config env)).
Proof.
  intros [(s & Hs & Hne)|[Hf He]].
  - exists s. split; [|done]. apply init_url_truthy; [done|].
    by destruct s.
  - rewrite init_url_falsy by done.
    destruct (env !! "OLLAMA_API_URL") as [e|] eqn:E.
    + exists e. split; [done|]. congruence.
    + by exists _DEFAULT_URL.
Qed.

Lemma resolved_url_nonempty_witness :
  nonempty_str (url (__init__ ∅ ∅))
  ∧ nonempty_str (url (__init__ (<["api_url" := VStr "http://host:1234/"]> ∅) ∅)).
Proof.
  split.
  - apply (resolved_url_nonempty ∅ ∅). right. split; [reflexivity|discriminate].
  - apply (resolved_url_nonempty (<["api_url" := VStr "http://host:1234/"]> ∅) ∅).
    left. exists "http://host:1234/". split; [reflexivity|discriminate].
Defined.

(** C9, as stated, fails: with no [api_url] and [OLLAMA_API_URL] set to
    the empty string the base URL is the empty string. *)
Lemma resolved_url_empty_counterexample :
  ¬ nonempty_str (url (__init__ ∅ (<["OLLAMA_API_URL" := ""]> ∅))).
Proof.
  intros (s & Hs & Hne). vm_compute in Hs. congruence.
Qed.

(** C10. An [api_url] given with a falsy value, the empty string and
    [None] among them, is treated as absent: the base URL is the one of
    the config without the key, that is the environment variable or the
    default; a truthy value is taken as it is. *)
Theorem falsy_api_url_treated_as_absent (config : dict)
    (env : gmap string string) :
  py_truthy (VStr "") = false
  ∧ py_truthy VNone = false
  ∧ (∀ v, config !! "api_url" = Some v → py_truthy v = false →
       url (__init__ config env) = url (__init__ (delete "api_url" config) env)
       ∧ url (__init__ config env)
         = VStr (default "http://localhost:11434" (env !! "OLLAMA_API_URL")))
  ∧ (∀ v, config !! "api_url" = Some v → py_truthy v = true →
       url (__init__ config env) = v).
Proof.
  split; [done|]. split; [done|]. split.
  - intros v Hv Hf.
    assert (py_truthy (dict_get config "api_url") = false) as Hf'.
    { unfold dict_get. by rewrite Hv. }
    rewrite (init_url_falsy config env Hf').
    rewrite (init_url_falsy (delete "api_url" config) env);
      [done|by rewrite dict_get_delete].
  - intros v Hv Ht. by apply init_url_truthy.
Qed.

Lemma falsy_api_url_treated_as_absent_witness :
  url (__init__ (<["api_url" := VStr ""]> ∅)
                (<["OLLAMA_API_URL" := "http://gpu:11434"]> ∅))
  = VStr "http://gpu:11434".
Proof.
  refine (proj2 (proj1 (proj2 (proj2 (falsy_api_url_treated_as_absent
            (<["api_url" := VStr ""]> ∅)
            (<["OLLAMA_API_URL" := "http://gpu:11434"]> ∅))))
          (VStr "") _ _));
    reflexivity.
Defined.

(** * Further properties of the payload *)

(** The payload, key by key: an option key is never an entry; any other
    keyword argument is; the collected options and the three fixed
    fields fill what the keyword arguments leave free. *)
Lemma build_payload_lookup model messages (kw : dict) k :
  build_payload model messages kw !! k
  = if decide (k ∈ option_keys) then None
    else match kw !! k with
         | Some v => Some v
         | None =>
             if decide (k = "options")
             then (if py_truthy (VDict (built_options kw))
                   then Some (VDict (built_options kw)) else None)
             else if decide (k = "model") then Some model
             else if decide (k = "messages") then Some messages
             else if decide (k = "stream") then Some (VBool false)
             else None
         end.
Proof.
  destruct (decide (k ∈ option_keys)) as [Hk|Hk];
    [by apply build_payload_option_key|].
  destruct (decide (k = "tools")) as [->|Ht].
  { rewrite build_payload_tools. by destruct (kw !! "tools"). }
  rewrite build_payload_merge, dict_update_lookup, remaining_kwargs_lookup.
  rewrite decide_False
    by (unfold consumed_keys; intros [?|?]%elem_of_cons; done).
  destruct (kw !! k) as [v|]; [done|].
  rewrite staged_payload_lookup.
  destruct (decide (k = "options")) as [->|Ho]; [done|].
  rewrite decide_False by done.
  destruct (decide (k = "stream")) as [->|Hs]; [by rewrite lookup_insert_eq|].
  rewrite lookup_insert_ne by done.
  destruct (decide (k = "messages")) as [->|Hm]; [by rewrite lookup_insert_eq|].
  rewrite lookup_insert_ne by done.
  destruct (decide (k = "model")) as [->|Hmo]; [by rewrite lookup_insert_eq|].
  by rewrite lookup_insert_ne by done.
Qed.

(** Options are collected exactly when some option key is passed. *)
Lemma built_options_truthy (kw : dict) :
  py_truthy (VDict (built_options kw)) = true
  ↔ ∃ k, k ∈ option_keys ∧ is_Some (kw !! k).
Proof.
  split.
  - intros Ht.
    destruct (decide (built_options kw = ∅)) as [He|Hne].
    { apply py_truthy_dict_false in He. congruence. }
    apply map_choose in Hne as (k & v & Hk).
    rewrite built_options_lookup in Hk.
    case_decide; [|done]. exists k. split; [done|]. by exists v.
  - intros (k & Hk & v & Hv).
    apply (py_truthy_dict_true _ k v).
    rewrite built_options_lookup. by rewrite decide_True.
Qed.

Lemma fixed_key_not_option k :
  k ∈ ["model"; "messages"; "stream"] → k ∉ option_keys.
Proof.
  unfold option_keys. intros Hfix Hk.
  repeat (apply elem_of_cons in Hfix as [->|Hfix];
          [repeat (apply elem_of_cons in Hk as [?|Hk]; [discriminate|]);
           by apply elem_of_nil in Hk|]).
  by apply elem_of_nil in Hfix.
Qed.

Lemma options_not_fixed : "options" ∉ ["model"; "messages"; "stream"].
Proof.
  intros H. repeat (apply elem_of_cons in H as [?|H]; [discriminate|]).
  by apply elem_of_nil in H.
Qed.

Lemma not_is_Some_None {A : Type} : ¬ is_Some (@None A).
Proof. intros [? ?]. discriminate. Qed.

(** X1. The keys of the payload are ["model"], ["messages"] and
    ["stream"], ["options"] when some option key is passed, and every
    keyword that is not one of the six option keys; nothing else. *)
Theorem payload_keys model messages (kwargs : dict) k :
  is_Some (build_payload model messages kwargs !! k)
  ↔ k ∈ ["model"; "messages"; "stream"]
    ∨ (k = "options" ∧ ∃ k', k' ∈ option_keys ∧ is_Some (kwargs !! k'))
    ∨ ((k ∉ option_keys) ∧ is_Some (kwargs !! k)).
Proof.
  rewrite build_payload_lookup.
  destruct (decide (k ∈ option_keys)) as [Hk|Hk].
  { split; [intros H; by apply not_is_Some_None in H|].
    intros [Hfix|[[-> _]|[? _]]].
    - by apply fixed_key_not_option in Hfix.
    - exfalso. by apply options_not_consumed, option_key_consumed.
    - done. }
  destruct (kwargs !! k) as [v|] eqn:Hv.
  { split; [|by eexists]. intros _. right. right. split; [done|by eexists]. }
  destruct (decide (k = "options")) as [->|Ho].
  { destruct (py_truthy (VDict (built_options kwargs))) eqn:Ht.
    - split; [|by eexists]. intros _. right. left. split; [done|].
      by apply built_options_truthy.
    - split; [intros H; by apply not_is_Some_None in H|].
      intros [Hfix|[[_ Hex]|[_ H]]].
      + by apply options_not_fixed in Hfix.
      + apply built_options_truthy in Hex. congruence.
      + by apply not_is_Some_None in H. }
  split.
  - intros Hsome. left.
    destruct (decide (k = "model")) as [->|?]; [apply list_elem_of_here|].
    destruct (decide (k = "messages")) as [->|?];
      [apply list_elem_of_further, list_elem_of_here|].
    destruct (decide (k = "stream")) as [->|?];
      [do 2 apply list_elem_of_further; apply list_elem_of_here|].
    by apply not_is_Some_None in Hsome.
  - intros [Hfix|[[? _]|[_ H]]];
      [|done|by apply not_is_Some_None in H].
    repeat (apply elem_of_cons in Hfix as [->|Hfix]; [by eexists|]).
    by apply elem_of_nil in Hfix.
Qed.

Lemma payload_keys_witness :
  is_Some (build_payload (VStr "llama3") (VList []) kwargs_tools !! "options")
  ∧ ¬ is_Some (build_payload (VStr "llama3") (VList []) kwargs_tools
               !! "temperature").
Proof.
  split.
  - apply (payload_keys (VStr "llama3") (VList []) kwargs_tools "options").
    right. left. split; [reflexivity|]. exists "temperature".
    split; [apply list_elem_of_here|]. by exists temp02.
  - intros H.
    apply (payload_keys (VStr "llama3") (VList []) kwargs_tools "temperature")
      in H.
    destruct H as [H|[[H _]|[H _]]].
    + repeat (apply elem_of_cons in H as [?|H]; [discriminate|]).
      by apply elem_of_nil in H.
    + discriminate.
    + apply H. apply list_elem_of_here.
Defined.

(** X2. A keyword argument whose key is not one of the six option keys
    is an entry of the payload's top level, with its value. *)
Theorem non_option_kwargs_pass_through model messages (kwargs : dict) k v :
  k ∉ option_keys → kwargs !! k = Some v →
  build_payload model messages kwargs !! k = Some v.
Proof.
  intros Hk Hv. rewrite build_payload_lookup.
  by rewrite decide_False, Hv by done.
Qed.

Lemma non_option_kwargs_pass_through_witness :
  build_payload (VStr "llama3") (VList [])
    (<["keep_alive" := VStr "5m"]> kwargs_tools) !! "keep_alive"
  = Some (VStr "5m").
Proof.
  apply (non_option_kwargs_pass_through (VStr "llama3") (VList [])
           (<["keep_alive" := VStr "5m"]> kwargs_tools) "keep_alive").
  - intros H. repeat (apply elem_of_cons in H as [?|H]; [discriminate|]).
    by apply elem_of_nil in H.
  - reflexivity.
Defined.

(** X3. Unless the keyword arguments name them, the payload's ["model"]
    and ["messages"] are the call's arguments as they are, and
    ["stream"] is [False]. *)
Theorem reserved_fields_default model messages (kwargs : dict) :
  (kwargs !! "model" = None →
   build_payload model messages kwargs !! "model" = Some model)
  ∧ (kwargs !! "messages" = None →
     build_payload model messages kwargs !! "messages" = Some messages)
  ∧ (kwargs !! "stream" = None →
     build_payload model messages kwargs !! "stream" = Some (VBool false)).
Proof.
  split; [|split]; intros Hk; rewrite build_payload_lookup, Hk; reflexivity.
Qed.

Lemma reserved_fields_default_witness :
  build_payload (VStr "llama3") (VList []) kwargs_tools !! "stream"
  = Some (VBool false).
Proof.
  apply (reserved_fields_default (VStr "llama3") (VList []) kwargs_tools).
  reflexivity.
Defined.

(** X4. Without an ["options"] keyword of the caller, the payload's
    ["options"] entry, when there is one, is a mapping that holds the
    option keys of the keyword arguments with their values and no other
    key, and it is not empty. *)
Theorem options_exactly_option_kwargs model messages (kwargs : dict) o :
  kwargs !! "options" = None →
  build_payload model messages kwargs !! "options" = Some o →
  ∃ d, o = VDict d
       ∧ (∀ k, d !! k = if decide (k ∈ option_keys) then kwargs !! k else None)
       ∧ d ≠ ∅.
Proof.
  intros Hown. rewrite build_payload_options, Hown.
  destruct (py_truthy (VDict (built_options kwargs))) eqn:Ht; [|done].
  intros [= <-]. exists (built_options kwargs).
  split; [done|]. split; [apply built_options_lookup|].
  intros He. apply py_truthy_dict_false in He. congruence.
Qed.

Lemma options_exactly_option_kwargs_witness :
  ∃ d, build_payload (VStr "llama3") (VList []) kwargs_tools !! "options"
       = Some (VDict d)
       ∧ d !! "temperature" = Some temp02 ∧ d !! "tools" = None.
Proof.
  destruct (options_exactly_option_kwargs (VStr "llama3") (VList [])
              kwargs_tools (VDict (<["temperature" := temp02]> ∅)))
    as (d & Hd & Hk & _).
  - reflexivity.
  - vm_compute. reflexivity.
  - exists d. split; [by rewrite <- Hd; vm_compute|].
    rewrite !Hk. split; reflexivity.
Defined.

(** * Further properties of the call *)

Section CallFacts.

Variable py_str : value → string.

(** X5. The timeout is the config's ["timeout"] entry whenever the key
    is there, whatever its value, and 30 only when the key is missing;
    it is the timeout of the request that is sent. *)
Theorem timeout_by_presence (config : dict) (env : gmap string string)
    model messages kwargs post :
  let self := __init__ config env in
  (config !! "timeout" = None → timeout self = VInt 30)
  ∧ (∀ v, config !! "timeout" = Some v → timeout self = v)
  ∧ (∀ u, url self = VStr u →
       map req_timeout
         (chat_completions_create py_str self model messages kwargs post).1
       = [timeout self]).
Proof.
  intros self. split; [|split].
  - intros Hk. cbn. unfold dict_get_default. by rewrite Hk.
  - intros v Hk. cbn. unfold dict_get_default. by rewrite Hk.
  - intros u Hu.
    by rewrite (chat_completions_create_sent py_str self model messages kwargs
                  post _ (request_of_str self _ u Hu)).
Qed.

(** X6. When the base URL is not a string, no request is sent and the
    call raises [LLMError] with the wrapped error of [rstrip]: the type
    error of a [bytes] or [bytearray] URL, the attribute error of any
    other object. *)
Theorem non_string_url_no_request self model messages kwargs post :
  ((∃ b, url self = VBytes b ∨ url self = VByteArray b) →
   chat_completions_create py_str self model messages kwargs post
   = ([], Raise (Exn LLMError
        "An error occurred: a bytes-like object is required, not 'str'")))
  ∧ ((∀ u, url self ≠ VStr u) →
     (∀ b, url self ≠ VBytes b ∧ url self ≠ VByteArray b) →
     chat_completions_create py_str self model messages kwargs post
     = ([], Raise (Exn LLMError
                     ("An error occurred: '" ++ type_name (url self)
                      ++ "' object has no attribute 'rstrip'")))).
Proof.
  unfold chat_completions_create, try_body, request_of. split.
  - intros [b [-> | ->]]; reflexivity.
  - intros Hu Hb.
    destruct (url self) as [| | | |s| | |b|b] eqn:E; try reflexivity.
    + by destruct (Hu s).
    + by destruct (Hb b) as [? _].
    + by destruct (Hb b) as [_ ?].
Qed.

(** X7. An exception the transport raises reaches the caller as an
    [LLMError] when it is an [Exception]: an [HTTPStatusError] as
    "Ollama request failed: ...", an [LLMError] as it is, and any other
    [Exception] that is not a connect error as "An error occurred: ...".
    An exception that is not an [Exception] reaches the caller as it
    is. *)
Theorem transport_exception_classified self model messages kwargs post
    request e :
  request_of self (build_payload model messages kwargs) = Ok request →
  post request = Raise e →
  let outcome :=
    (chat_completions_create py_str self model messages kwargs post).2 in
  (exn_cls e = HTTPStatusError →
   outcome = Raise (Exn LLMError ("Ollama request failed: " ++ exn_msg e)))
  ∧ (exn_cls e = LLMError → outcome = Raise e)
  ∧ (is_Exception (exn_cls e) = true →
     exn_cls e ∉ [LLMError; ConnectError; HTTPStatusError] →
     outcome = Raise (Exn LLMError ("An error occurred: " ++ exn_msg e)))
  ∧ (is_Exception (exn_cls e) = false → outcome = Raise e).
Proof.
  intros Hreq Hpost outcome. unfold outcome.
  rewrite (chat_completions_create_sent _ _ _ _ _ _ _ Hreq), Hpost. cbn [snd].
  split; [|split; [|split]].
  - intros Hcls. unfold except_clauses. by rewrite Hcls.
  - intros Hcls. unfold except_clauses. by rewrite Hcls.
  - intros Hexn Hcls. destruct e as [cls msg]. cbn in *.
    destruct cls; try reflexivity; try discriminate; exfalso; apply Hcls.
    + apply list_elem_of_here.
    + apply list_elem_of_further, list_elem_of_here.
    + do 2 apply list_elem_of_further. apply list_elem_of_here.
  - intros Hcls. by rewrite except_clauses_not_Exception.
Qed.





(** X9. A 200 answer whose decoded body is a mapping with a mapping
    under ["message"] makes the call return, after its one request, a
    response with one choice: the content is the message's ["content"]
    as it is, or [""] without one, and the tool calls are the message's
    ["tool_calls"], unset without one. *)
Theorem success_returns_normalized self model messages kwargs post
    request response (d md : dict) :
  request_of self (build_payload model messages kwargs) = Ok request →
  post request = Ok response →
  status_code response = 200 →
  json_body response = Some (VDict d) →
  d !! "message" = Some (VDict md) →
  chat_completions_create py_str self model messages kwargs post
  = ([request],
     Ok (mkChatCompletionResponse
           [mkChoice (mkMessage (default (VStr "") (md !! "content"))
                                (md !! "tool_calls"))])).
Proof.
  intros Hreq Hpost Hs Hj Hm.
  rewrite (chat_completions_create_sent _ _ _ _ _ _ _ Hreq), Hpost, Hs.
  rewrite Z.eqb_refl. cbn [negb]. unfold response_json. rewrite Hj.
  unfold mbind, result_bind.
  by rewrite (normalize_response_message d md Hm).
Qed.

End CallFacts.

Lemma timeout_by_presence_witness :
  map req_timeout
    (chat_completions_create str_of_scalar
       (__init__ (<["timeout" := VNone]> ∅) ∅)
       (VStr "llama3") (VList []) ∅ (λ _, Ok boom_response)).1
  = [VNone].
Proof.
  refine (proj2 (proj2 (timeout_by_presence str_of_scalar
            (<["timeout" := VNone]> ∅) ∅
            (VStr "llama3") (VList []) ∅ (λ _, Ok boom_response)))
          "http://localhost:11434" _).
  reflexivity.
Defined.

Lemma non_string_url_no_request_witness :
  chat_completions_create str_of_scalar
    (__init__ (<["api_url" := VInt 8080]> ∅) ∅)
    (VStr "llama3") (VList []) ∅ (λ _, Ok boom_response)
  = ([], Raise (Exn LLMError
                  "An error occurred: 'int' object has no attribute 'rstrip'"))
  ∧ chat_completions_create str_of_scalar
      (__init__ (<["api_url" := VBytes "http://host:1234/"]> ∅) ∅)
      (VStr "llama3") (VList []) ∅ (λ _, Ok boom_response)
    = ([], Raise (Exn LLMError
         "An error occurred: a bytes-like object is required, not 'str'")).
Proof.
  split.
  - rewrite (proj2 (non_string_url_no_request str_of_scalar
               (__init__ (<["api_url" := VInt 8080]> ∅) ∅)
               (VStr "llama3") (VList []) ∅ (λ _, Ok boom_response))).
    + reflexivity.
    + intros u. vm_compute. discriminate.
    + intros b. vm_compute. split; discriminate.
  - apply (proj1 (non_string_url_no_request str_of_scalar
               (__init__ (<["api_url" := VBytes "http://host:1234/"]> ∅) ∅)
               (VStr "llama3") (VList []) ∅ (λ _, Ok boom_response))).
    exists "http://host:1234/". left. reflexivity.
Defined.

Lemma transport_exception_classified_witness :
  (chat_completions_create str_of_scalar (__init__ ∅ ∅)
     (VStr "llama3") (VList []) ∅
     (λ _, Raise (Exn (OtherException "ReadTimeout") "timed out"))).2
  = Raise (Exn LLMError "An error occurred: timed out")
  ∧ (chat_completions_create str_of_scalar (__init__ ∅ ∅)
       (VStr "llama3") (VList []) ∅
       (λ _, Raise (Exn (BaseExceptionOnly "KeyboardInterrupt") ""))).2
    = Raise (Exn (BaseExceptionOnly "KeyboardInterrupt") "").
Proof.
  split.
  - refine (proj1 (proj2 (proj2 (transport_exception_classified str_of_scalar
              (__init__ ∅ ∅) (VStr "llama3") (VList []) ∅
              (λ _, Raise (Exn (OtherException "ReadTimeout") "timed out"))
              (mkRequest "http://localhost:11434/api/chat"
                 (build_payload (VStr "llama3") (VList []) ∅) (VInt 30))
              (Exn (OtherException "ReadTimeout") "timed out") _ _))) _ _).
    + reflexivity.
    + reflexivity.
    + reflexivity.
    + simpl. intros H.
      repeat (apply elem_of_cons in H as [?|H]; [discriminate|]).
      by apply elem_of_nil in H.
  - refine (proj2 (proj2 (proj2 (transport_exception_classified str_of_scalar
              (__init__ ∅ ∅) (VStr "llama3") (VList []) ∅
              (λ _, Raise (Exn (BaseExceptionOnly "KeyboardInterrupt") ""))
              (mkRequest "http://localhost:11434/api/chat"
                 (build_payload (VStr "llama3") (VList []) ∅) (VInt 30))
              (Exn (BaseExceptionOnly "KeyboardInterrupt") "") _ _))) _).
    + reflexivity.
    + reflexivity.
    + reflexivity.
Defined.


Lemma success_returns_normalized_witness :
  chat_completions_create str_of_scalar (__init__ ∅ ∅)
    (VStr "llama3") (VList []) ∅
    (λ _, Ok (mkResponse 200 "" (Some hi_response_data) (NotJSON "")))
  = ([mkRequest "http://localhost:11434/api/chat"
        (build_payload (VStr "llama3") (VList []) ∅) (VInt 30)],
     Ok (mkChatCompletionResponse
           [mkChoice (mkMessage (VStr "hi") (Some hi_tool_calls))])).
Proof.
  rewrite (success_returns_normalized str_of_scalar (__init__ ∅ ∅)
             (VStr "llama3") (VList []) ∅
             (λ _, Ok (mkResponse 200 "" (Some hi_response_data) (NotJSON "")))
             (mkRequest "http://localhost:11434/api/chat"
                (build_payload (VStr "llama3") (VList []) ∅) (VInt 30))
             (mkResponse 200 "" (Some hi_response_data) (NotJSON ""))
             (<["message" :=
                 VDict (<["content" := VStr "hi"]>
                          (<["tool_calls" := hi_tool_calls]> ∅))]> ∅)
             (<["content" := VStr "hi"]> (<["tool_calls" := hi_tool_calls]> ∅)));
    reflexivity.
Defined.

(** * Further properties of the normalization *)

(** X10. The normalization fails exactly on a body that is not a
    mapping, or whose ["message"] entry is not a mapping, with the
    [AttributeError] of the missing [get]; on every other body it gives
    a response with exactly one choice. *)
Theorem normalize_response_shape (v : value) :
  ((∀ d, v ≠ VDict d) →
   _normalize_response v
   = Raise (Exn AttributeError
              ("'" ++ type_name v ++ "' object has no attribute 'get'")))
  ∧ (∀ (d : dict) m, v = VDict d → d !! "message" = Some m →
       (∀ md, m ≠ VDict md) →
       _normalize_response v
       = Raise (Exn AttributeError
                  ("'" ++ type_name m ++ "' object has no attribute 'get'")))
  ∧ (∀ d : dict, v = VDict d →
       d !! "message" = None ∨ (∃ md, d !! "message" = Some (VDict md)) →
       ∃ m, _normalize_response v
            = Ok (mkChatCompletionResponse [mkChoice m])).
Proof.
  split; [|split].
  - intros Hv. destruct v as [| | | | | |d| |]; try reflexivity.
    by destruct (Hv d).
  - intros d m -> Hm Hnd. unfold _normalize_response. cbn.
    replace (dict_get_default d "message" (VDict ∅)) with m
      by (unfold dict_get_default; by rewrite Hm).
    destruct m as [| | | | | |md| |]; try reflexivity. by destruct (Hnd md).
  - intros d -> [Hm|[md Hm]].
    + eexists. by apply normalize_response_no_message.
    + eexists. by apply normalize_response_message.
Qed.

Lemma normalize_response_shape_witness :
  _normalize_response (VList [])
  = Raise (Exn AttributeError "'list' object has no attribute 'get'")
  ∧ _normalize_response (VDict (<["message" := VStr "hi"]> ∅))
    = Raise (Exn AttributeError "'str' object has no attribute 'get'").
Proof.
  split.
  - apply (proj1 (normalize_response_shape (VList []))).
    intros d. discriminate.
  - apply (proj1 (proj2 (normalize_response_shape
                           (VDict (<["message" := VStr "hi"]> ∅))))
             (<["message" := VStr "hi"]> ∅) (VStr "hi")).
    + reflexivity.
    + reflexivity.
    + intros md. discriminate.
Defined.

(** X11. The normalization reads the ["message"] entry of the body and
    nothing else, and of the message its ["content"] and ["tool_calls"]
    entries and nothing else. *)
Theorem normalize_response_reads_only (d d' : dict) :
  (d !! "message" = d' !! "message" →
   _normalize_response (VDict d) = _normalize_response (VDict d'))
  ∧ (∀ md md' : dict,
       d !! "message" = Some (VDict md) →
       d' !! "message" = Some (VDict md') →
       md !! "content" = md' !! "content" →
       md !! "tool_calls" = md' !! "tool_calls" →
       _normalize_response (VDict d) = _normalize_response (VDict d')).
Proof.
  split.
  - intros Hm. unfold _normalize_response. cbn [value_get].
    assert (dict_get_default d "message" (VDict ∅)
            = dict_get_default d' "message" (VDict ∅)) as ->
      by (unfold dict_get_default; by rewrite Hm).
    reflexivity.
  - intros md md' Hm Hm' Hc Ht.
    rewrite (normalize_response_message d md Hm).
    rewrite (normalize_response_message d' md' Hm').
    unfold dict_get_default. by rewrite Hc, Ht.
Qed.

Lemma normalize_response_reads_only_witness :
  _normalize_response
    (VDict (<["done" := VBool true]>
              (<["message" := VDict (<["content" := VStr "hi"]> ∅)]> ∅)))
  = _normalize_response
      (VDict (<["message" :=
                 VDict (<["role" := VStr "assistant"]>
                          (<["content" := VStr "hi"]> ∅))]> ∅)).
Proof.
  apply (proj2 (normalize_response_reads_only
                  (<["done" := VBool true]>
                     (<["message" := VDict (<["content" := VStr "hi"]> ∅)]> ∅))
                  (<["message" :=
                      VDict (<["role" := VStr "assistant"]>
                               (<["content" := VStr "hi"]> ∅))]> ∅))
           (<["content" := VStr "hi"]> ∅)
           (<["role" := VStr "assistant"]> (<["content" := VStr "hi"]> ∅)));
    reflexivity.
Defined.

(** * Trailing slashes of the base URL *)

Lemma rstrip_slashes (n : nat) : rstrip "/" (slashes n) = "".
Proof. induction n as [|n IH]; [done|]. cbn [slashes rstrip]. by rewrite IH. Qed.

Lemma rstrip_app_slashes (u : string) (n : nat) :
  rstrip "/" (u ++ slashes n) = rstrip "/" u.
Proof.
  induction u as [|c u IH]; [apply rstrip_slashes|].
  change (String c u ++ slashes n) with (String c (u ++ slashes n)).
  cbn [rstrip]. by rewrite IH.
Qed.

(** X12. Trailing slashes of the base URL make no difference: a
    provider whose URL has any number of slashes appended sends the
    same request and ends the same way; a URL made of slashes only
    gives the target ["/api/chat"]. *)
Theorem trailing_slashes_insensitive (py_str : value → string)
    (u : string) (n : nat) (t model messages : value) kwargs post :
  chat_completions_create py_str (mkOllamaProvider (VStr (u ++ slashes n)) t)
    model messages kwargs post
  = chat_completions_create py_str (mkOllamaProvider (VStr u) t)
      model messages kwargs post
  ∧ map req_target
      (chat_completions_create py_str (mkOllamaProvider (VStr (slashes n)) t)
         model messages kwargs post).1
    = ["/api/chat"].
Proof.
  split.
  - unfold chat_completions_create, try_body, request_of. cbn.
    by rewrite rstrip_app_slashes.
  - unfold chat_completions_create, try_body, request_of. cbn.
    by rewrite rstrip_slashes.
Qed.

(** * Option keywords and an explicit options mapping *)

(** X13. The option keywords are a shorthand: when the caller passes
    some of the six option keys and no ["options"] keyword, the payload
    is the one of the call that passes the same other keywords and the
    collected options as an explicit ["options"] keyword. *)
Theorem option_keywords_as_explicit_options model messages (kw kw' : dict) :
  kw !! "options" = None →
  (∃ k, k ∈ option_keys ∧ is_Some (kw !! k)) →
  (∀ k, kw' !! k
        = if decide (k ∈ option_keys) then None
          else if decide (k = "options") then Some (VDict (built_options kw))
          else kw !! k) →
  build_payload model messages kw' = build_payload model messages kw.
Proof.
  intros Hown Hsome Hkw'. apply map_eq. intros k.
  rewrite !build_payload_lookup, Hkw'.
  destruct (decide (k ∈ option_keys)) as [Hk|Hk]; [done|].
  destruct (decide (k = "options")) as [->|Ho].
  - rewrite Hown. by rewrite (proj2 (built_options_truthy kw) Hsome).
  - destruct (kw !! k); done.
Qed.

Lemma option_keywords_as_explicit_options_witness :
  build_payload (VStr "llama3") (VList [])
    (<["options" := VDict (<["temperature" := temp02]> ∅)]> ∅)
  = build_payload (VStr "llama3") (VList []) (<["temperature" := temp02]> ∅).
Proof.
  apply (option_keywords_as_explicit_options (VStr "llama3") (VList [])
           (<["temperature" := temp02]> ∅)
           (<["options" := VDict (<["temperature" := temp02]> ∅)]> ∅)).
  - reflexivity.
  - exists "temperature". split; [apply list_elem_of_here|].
    exists temp02. reflexivity.
  - intros k.
    destruct (decide (k ∈ option_keys)) as [Hk|Hk].
    + rewrite lookup_insert_ne; [apply lookup_empty|].
      intros <-. by apply options_not_consumed, option_key_consumed.
    + destruct (decide (k = "options")) as [->|Ho].
      * rewrite lookup_insert_eq. by do 2 f_equal.
      * rewrite lookup_insert_ne by done. rewrite lookup_empty.
        symmetry. rewrite lookup_insert_ne; [apply lookup_empty|].
        intros <-. apply Hk. apply list_elem_of_here.
Defined.
